(** * g-factor analysis of the tetracyclic "Alpha" polymer

    A shallow embedding of the two analysis scripts of the repository,

    - [lammps_files/compute_gyration.py]: the empirical ratio of mean-square
      radii of gyration computed from two LAMMPS time series, and
    - [lammps_files/tetracyclic_analysis.py]: the theoretical g-factor of the
      "Alpha" graph,

    together with the properties the specification states about them.

    Python values are modelled as the scripts use them: [int] as [Z],
    numpy's [float64] as Rocq's primitive binary64 [float] (so rounding,
    infinities and NaN are those of IEEE 754), exceptions as the left
    summand of [Py], a networkx [Graph] as its adjacency dictionary. *)

From Stdlib Require Import ZArith List String Ascii Bool Lia QArith Qfield.
From Stdlib Require Import Floats Uint63 Lqa.
From stdpp Require Import gmap.
Import ListNotations.

Set Warnings "-inexact-float,-register-all,-clear-no-such-hyp".
Local Open Scope Z_scope.

(** ** Python exceptions *)

Inductive PyExc : Set :=
| TypeError
| ValueError
| IndexError
| AttributeError
| ZeroDivisionError.

(** A computation that either raises or yields a value. *)
Definition Py (A : Type) : Type := (PyExc + A)%type.

Definition py_ret {A} (a : A) : Py A := inr a.
Definition raise {A} (e : PyExc) : Py A := inl e.
Definition py_bind {A B} (m : Py A) (k : A -> Py B) : Py B :=
  match m with
  | inl e => inl e
  | inr a => k a
  end.

Notation "'let!' x ':=' m 'in' k" := (py_bind m (fun x => k))
  (at level 10, x name, m at level 100, k at level 200).

(** [int -> float] conversion, for the magnitudes the scripts meet (lengths
    and edge counts, far below 2^53, where the conversion is exact). *)
Definition float_of_Z (z : Z) : float :=
  if z <? 0 then (- PrimFloat.of_uint63 (Uint63.of_Z (- z)))%float
  else PrimFloat.of_uint63 (Uint63.of_Z z).

(** ** The arithmetic the statistics are written over

    [np.mean], [** 2] and [np.std] are the same expressions whether they are
    read in binary64, as numpy evaluates them, or in exact rational
    arithmetic, as the mathematics behind the g-factor reads them.  The
    statistics are therefore written once, over the operations, and
    instantiated at both. *)

Class Arith (F : Type) : Type := {
  f_add : F -> F -> F;
  f_sub : F -> F -> F;
  f_mul : F -> F -> F;
  f_div : F -> F -> F;
  f_of_nat : nat -> F
}.

#[export] Instance float64_arith : Arith float := {|
  f_add := PrimFloat.add;
  f_sub := PrimFloat.sub;
  f_mul := PrimFloat.mul;
  f_div := PrimFloat.div;
  f_of_nat := fun n => float_of_Z (Z.of_nat n)
|}.

#[export] Instance exact_arith : Arith Q := {|
  f_add := Qplus;
  f_sub := Qminus;
  f_mul := Qmult;
  f_div := Qdiv;
  f_of_nat := fun n => inject_Z (Z.of_nat n)
|}.

Module numpy.
Section Reductions.
Context {F : Type} `{Arith F}.

(** [np.add.reduce]: accumulation from 0, left to right.  numpy adds long
    arrays in blocks, pairwise; on fewer than eight items, as in every
    window evaluated below, it adds in this order. *)
Definition sum (a : list F) : F := fold_left f_add a (f_of_nat 0).

(** [np.mean(a)]: the sum divided by the number of items. *)
Definition mean (a : list F) : F := f_div (sum a) (f_of_nat (length a)).

(** [a ** 2]: element-wise square. *)
Definition square (a : list F) : list F := map (fun x => f_mul x x) a.

(** [np.var(a)], population variance ([ddof = 0]): the mean of the squared
    deviations from the mean. *)
Definition var (a : list F) : F :=
  let arrmean := mean a in
  mean (square (map (fun x => f_sub x arrmean) a)).
End Reductions.

(** [np.std(a)]: the square root of [np.var(a)]. *)
Definition std (a : list float) : float := PrimFloat.sqrt (var a).

(** What [np.loadtxt] hands back: an array of dimension 0, 1 or 2. *)
Inductive ndarray : Type :=
| Scalar (x : float)
| Vector (xs : list float)
| Matrix (rows : list (list float)).

Definition ndim (a : ndarray) : nat :=
  match a with
  | Scalar _ => 0
  | Vector _ => 1
  | Matrix _ => 2
  end.

Definition shape (a : ndarray) : list nat :=
  match a with
  | Scalar _ => []
  | Vector xs => [length xs]
  | Matrix rows => [length rows; length (hd [] rows)]
  end.

(** [a.shape[i]]: indexing the shape tuple. *)
Definition shape_item (a : ndarray) (i : nat) : Py nat :=
  match nth_error (shape a) i with
  | Some d => py_ret d
  | None => raise IndexError
  end.

(** [a[:, j]]: column [j] of a two-dimensional array. *)
Definition column (a : ndarray) (j : nat) : Py (list float) :=
  match a with
  | Matrix rows =>
      if (j <? length (hd [] rows))%nat
      then py_ret (map (fun r => nth j r PrimFloat.nan) rows)
      else raise IndexError
  | _ => raise IndexError
  end.

(** *** [np.loadtxt(filename, comments='#')] *)

Definition is_space (c : ascii) : bool :=
  match nat_of_ascii c with
  | 9%nat | 10%nat | 11%nat | 12%nat | 13%nat | 32%nat => true
  | _ => false
  end.

(** The part of a line before the comment marker. *)
Fixpoint strip_comment (line : string) : string :=
  match line with
  | EmptyString => EmptyString
  | String c rest =>
      if Ascii.eqb c "#"%char then EmptyString
      else String c (strip_comment rest)
  end.

(** Whitespace-separated fields; [cur] is the field being read. *)
Fixpoint fields_from (cur : string) (s : string) : list string :=
  match s with
  | EmptyString =>
      match cur with EmptyString => [] | _ => [cur] end
  | String c rest =>
      if is_space c then
        match cur with
        | EmptyString => fields_from EmptyString rest
        | _ => cur :: fields_from EmptyString rest
        end
      else fields_from (cur ++ String c EmptyString) rest
  end.

Definition fields (line : string) : list string :=
  fields_from EmptyString (strip_comment line).

(** A line that carries data: something is left of it once the comment and
    the surrounding whitespace are gone. *)
Definition is_data_line (line : string) : bool :=
  match fields line with
  | [] => false
  | _ => true
  end.

Definition data_lines (lines : list string) : list string :=
  List.filter is_data_line lines.

(** [np.squeeze] of the [n x k] table read, numpy's default [ndmin = 0]: every
    axis of length one is dropped, and no row at all is the empty vector. *)
Definition squeeze (rows : list (list float)) : ndarray :=
  match rows with
  | [] => Vector []
  | [[x]] => Scalar x
  | [r] => Vector r
  | _ =>
      if forallb (fun r => (length r =? 1)%nat) rows
      then Vector (map (fun r => nth 0 r PrimFloat.nan) rows)
      else Matrix rows
  end.

Section Loadtxt.
(** The conversion of one field to a number (C's [strtod], as numpy calls
    it); [None] when the field is no number. *)
Variable str2float : string -> option float.

Fixpoint convert_row (toks : list string) : Py (list float) :=
  match toks with
  | [] => py_ret []
  | t :: toks' =>
      match str2float t with
      | None => raise ValueError
      | Some x => let! xs := convert_row toks' in py_ret (x :: xs)
      end
  end.

(** The rows of the data lines, in order; a field that is no number, or a
    row whose number of fields differs from the first row's, is a
    [ValueError]. *)
Fixpoint read_rows (ncols : option nat) (lines : list string)
  : Py (list (list float)) :=
  match lines with
  | [] => py_ret []
  | line :: lines' =>
      match fields line with
      | [] => read_rows ncols lines'
      | toks =>
          let! r := convert_row toks in
          match ncols with
          | Some k =>
              if (length r =? k)%nat
              then let! rs := read_rows ncols lines' in py_ret (r :: rs)
              else raise ValueError
          | None =>
              let! rs := read_rows (Some (length r)) lines' in py_ret (r :: rs)
          end
      end
  end.

Definition loadtxt (lines : list string) : Py ndarray :=
  let! rows := read_rows None lines in py_ret (squeeze rows).

(** A valid data record: a data line every field of which is a number. *)
Definition is_valid_record (line : string) : bool :=
  is_data_line line &&
  forallb (fun t => match str2float t with Some _ => true | None => false end)
          (fields line).

End Loadtxt.
End numpy.

(** ** [compute_gyration.py] *)

Module compute_gyration.
Import numpy.

(** The error lines [get_avg_rg_from_file] prints before it returns [None]. *)
Inductive Message : Type :=
| NotFound                        (* "... not found!" *)
| NoValidData                     (* "... contains no valid data." *)
| NotEnoughData                   (* "Not enough data in ... to analyze." *)
| ErrorOccurred (e : PyExc).      (* "An error occurred processing ..." *)

(** The tuple [get_avg_rg_from_file] returns on success. *)
Record Analysis : Type := {
  avg_rg_squared : float;
  avg_rg : float;
  timesteps : list float;
  rg_values : list float;
  equilibrated_start : Z;
  equilibrated_rg : list float
}.

(** What a call of [get_avg_rg_from_file] comes back with. *)
Inductive Returned : Type :=
| ReturnNone (printed : Message)
| ReturnTuple (a : Analysis).

(** Lines 37-44: where the equilibrated window of a series of [n] samples
    starts, or [None] where the function gives up. *)
Definition equilibration_window (n : Z) : option Z :=
  let equilibrated_start := (n * 3) / 4 in
  if (equilibrated_start =? 0) && (1 <? n) then Some 1
  else if n <=? 1 then None
  else Some equilibrated_start.

(** [rg_values[equilibrated_start:]] for a start that is not negative. *)
Definition slice_from (start : Z) (a : list float) : list float :=
  skipn (Z.to_nat start) a.

(** Lines 29-64, the body of the [try] once [data] is loaded: it raises,
    or the function returns what it yields. *)
Definition analyse (data : ndarray) : Py Returned :=
  let! no_data :=
    (if (ndim data =? 0)%nat then py_ret true
     else let! ncols := shape_item data 1 in py_ret (ncols <? 2)%nat) in
  if (no_data : bool) then py_ret (ReturnNone NoValidData)
  else
    let! timesteps := column data 0 in
    let! rg_values := column data 1 in
    match equilibration_window (Z.of_nat (length rg_values)) with
    | None => py_ret (ReturnNone NotEnoughData)
    | Some equilibrated_start =>
        let equilibrated_rg := slice_from equilibrated_start rg_values in
        let avg_rg := mean equilibrated_rg in
        let std_rg := std equilibrated_rg in
        let avg_rg_squared := mean (square equilibrated_rg) in
        py_ret (ReturnTuple
          {| avg_rg_squared := avg_rg_squared;
             avg_rg := avg_rg;
             timesteps := timesteps;
             rg_values := rg_values;
             equilibrated_start := equilibrated_start;
             equilibrated_rg := equilibrated_rg |})
    end.

(** What [main] ends with: [sys.exit(1)], or the ratio it reports. *)
Inductive Exit : Type :=
| SysExit (code : Z)
| Reported (custom_ratio : float).

(** Lines 84-96 of [main], from the two loaded results on. *)
Definition compare (alpha_data tree_data : Returned) : Exit :=
  match alpha_data, tree_data with
  | ReturnTuple alpha, ReturnTuple tree =>
      let rg2_alpha := avg_rg_squared alpha in
      let rg2_tree := avg_rg_squared tree in
      Reported (rg2_alpha / rg2_tree)%float
  | _, _ => SysExit 1
  end.

Section Files.
Variable str2float : string -> option float.
(** The files at hand: the lines of a file that exists. *)
Variable fs : string -> option (list string).

Definition get_avg_rg_from_file (filename : string) : Returned :=
  match fs filename with
  | None => ReturnNone NotFound
  | Some lines =>
      match (let! data := loadtxt str2float lines in analyse data) with
      | inl e => ReturnNone (ErrorOccurred e)
      | inr r => r
      end
  end.

Definition main (file_alpha file_tree : string) : Exit :=
  let alpha_data := get_avg_rg_from_file file_alpha in
  let tree_data := get_avg_rg_from_file file_tree in
  compare alpha_data tree_data.
End Files.

End compute_gyration.

(** ** networkx's [Graph]

    An undirected graph is its adjacency dictionary [_adj]: every node is a
    key, mapped to the set of its neighbours.  Nothing is checked when a
    graph is built: an edge brings its end points with it, and an edge from
    a node to itself is stored like any other. *)

Module networkx.

Abbreviation Graph := (gmap Z (gset Z)).

(** [nx.Graph()] *)
Definition empty_graph : Graph := ∅.

(** [G.add_node(n)] *)
Definition add_node (g : Graph) (n : Z) : Graph :=
  match g !! n with
  | Some _ => g
  | None => <[n := ∅]> g
  end.

(** [G.add_nodes_from(nodes)] *)
Definition add_nodes_from (g : Graph) (nodes : list Z) : Graph :=
  fold_left add_node nodes g.

Definition neighbours (g : Graph) (n : Z) : gset Z := default ∅ (g !! n).

(** [G.add_edge(u, v)] *)
Definition add_edge (g : Graph) (e : Z * Z) : Graph :=
  let '(u, v) := e in
  let g := add_node (add_node g u) v in
  let g := <[u := {[v]} ∪ neighbours g u]> g in
  <[v := {[u]} ∪ neighbours g v]> g.

(** [G.add_edges_from(edges)] *)
Definition add_edges_from (g : Graph) (edges : list (Z * Z)) : Graph :=
  fold_left add_edge edges g.

(** [G.has_node(n)] and [G.has_edge(u, v)] *)
Definition has_node (g : Graph) (n : Z) : bool := bool_decide (is_Some (g !! n)).
Definition has_edge (g : Graph) (u v : Z) : bool := bool_decide (v ∈ neighbours g u).

(** [G.number_of_nodes()] *)
Definition number_of_nodes (g : Graph) : Z := Z.of_nat (size g).

(** [G.degree(n)]: the number of neighbours, a loop counted twice. *)
Definition degree (g : Graph) (n : Z) : Z :=
  Z.of_nat (size (neighbours g n)) + (if has_edge g n n then 1 else 0).

(** [G.number_of_edges()]: half the sum of the degrees. *)
Definition number_of_edges (g : Graph) : Z :=
  fold_right (fun n acc => degree g n + acc) 0 (elements (dom g)) / 2.

End networkx.

(** ** [tetracyclic_analysis.py] *)

Module tetracyclic_analysis.
Import networkx.

(** *** The expressions of [create_alpha_graph]

    The two list displays of the method are kept as syntax, since what the
    second one denotes is decided by how Python parses it: inside the
    brackets the line break after [(3, 6)] is no separator, so the tuple is
    followed directly by a parenthesised argument list, which is a call. *)

Inductive expr : Type :=
| Num (n : Z)
| Tuple (items : list expr)
| ListDisplay (items : list expr)
| Call (callee : expr) (args : list expr).

Inductive value : Type :=
| VInt (n : Z)
| VTuple (items : list value)
| VList (items : list value).

(** Evaluation, operands from left to right.  A call evaluates the callee,
    then the arguments, then applies; integers, tuples and lists have no
    [__call__], so applying one raises [TypeError]. *)
Fixpoint eval (e : expr) : Py value :=
  let fix eval_all (es : list expr) : Py (list value) :=
    match es with
    | [] => py_ret []
    | e :: es' =>
        let! v := eval e in
        let! vs := eval_all es' in
        py_ret (v :: vs)
    end in
  match e with
  | Num n => py_ret (VInt n)
  | Tuple items => let! vs := eval_all items in py_ret (VTuple vs)
  | ListDisplay items => let! vs := eval_all items in py_ret (VList vs)
  | Call callee args =>
      let! f := eval callee in
      let! vs := eval_all args in
      raise TypeError
  end.

Definition pair (u v : Z) : expr := Tuple [Num u; Num v].

(** Line 28. *)
Definition nodes_display : expr :=
  ListDisplay [Num 1; Num 2; Num 3; Num 4; Num 5; Num 6].

(** Lines 29-33: eight items, the sixth of them the call [(3, 6)(5, 2)]. *)
Definition edges_display : expr :=
  ListDisplay
    [ pair 1 2; pair 1 4; pair 1 5;
      pair 3 2; pair 3 4; Call (pair 3 6) [Num 5; Num 2];
                pair 5 4; pair 5 6 ].

(** The nodes of a list of integers, and the edges of a list of 2-tuples of
    integers, as [add_nodes_from] and [add_edges_from] unpack them. *)
Definition as_int (v : value) : Py Z :=
  match v with
  | VInt n => py_ret n
  | _ => raise TypeError
  end.

Definition as_edge (v : value) : Py (Z * Z) :=
  match v with
  | VTuple [VInt u; VInt v] => py_ret (u, v)
  | _ => raise TypeError
  end.

Fixpoint traverse {A B} (f : A -> Py B) (l : list A) : Py (list B) :=
  match l with
  | [] => py_ret []
  | a :: l' => let! b := f a in let! bs := traverse f l' in py_ret (b :: bs)
  end.

Definition items_of (v : value) : Py (list value) :=
  match v with
  | VList items | VTuple items => py_ret items
  | VInt _ => raise TypeError
  end.

(** Lines 25 and 34-36: the graph built from a node list and an edge list. *)
Definition graph_of (nodes : list Z) (edges : list (Z * Z)) : Graph :=
  let g := empty_graph in
  let g := add_nodes_from g nodes in
  let g := add_edges_from g edges in
  g.

(** An instance of the class: the attributes set so far. *)
Record AlphaGraphAnalysis : Type := {
  self_G : option Graph;
  self_expected_g_from_paper : option float
}.

(** The object [__init__] receives. *)
Definition new_instance : AlphaGraphAnalysis :=
  {| self_G := None; self_expected_g_from_paper := None |}.

(** The body of [create_alpha_graph], over the two displays it evaluates. *)
Definition build_from (nodes_expr edges_expr : expr) : Py Graph :=
  let! nodes := eval nodes_expr in
  let! edges := eval edges_expr in
  let! nodes := (let! l := items_of nodes in traverse as_int l) in
  let! edges := (let! l := items_of edges in traverse as_edge l) in
  py_ret (graph_of nodes edges).

Definition create_alpha_graph (self : AlphaGraphAnalysis) : Py Graph :=
  build_from nodes_display edges_display.

(** The edge display as it reads with a comma after [(3, 6)]: every call
    [f(args)] among the items becomes the two items [f] and [(args)]. *)
Fixpoint separated (items : list expr) : list expr :=
  match items with
  | [] => []
  | Call callee args :: rest => callee :: Tuple args :: separated rest
  | item :: rest => item :: separated rest
  end.

Definition edges_as_listed : expr :=
  match edges_display with
  | ListDisplay items => ListDisplay (separated items)
  | e => e
  end.

(** K(3,3) on the hubs {1,3,5} and {2,4,6}: the six vertices, and an edge
    exactly between a vertex of one hub and a vertex of the other. *)
Definition odd_hub (n : Z) : bool := (n =? 1) || (n =? 3) || (n =? 5).
Definition even_hub (n : Z) : bool := (n =? 2) || (n =? 4) || (n =? 6).

Definition is_K33 (g : Graph) : Prop :=
  dom g = {[1; 2; 3; 4; 5; 6]} /\
  number_of_edges g = 9 /\
  forall u v : Z,
    has_edge g u v = (odd_hub u && even_hub v) || (even_hub u && odd_hub v).

(** Line 21, the right-hand side: [17/49], a division of two [int]s. *)
Definition expected_g : float := (17 / 49)%float.

Definition __init__ (self : AlphaGraphAnalysis) : Py AlphaGraphAnalysis :=
  let! g := create_alpha_graph self in
  let self := {| self_G := Some g;
                 self_expected_g_from_paper := self_expected_g_from_paper self |} in
  py_ret {| self_G := self_G self;
            self_expected_g_from_paper := Some expected_g |}.

Definition getattr {A} (field : option A) : Py A :=
  match field with
  | Some a => py_ret a
  | None => raise AttributeError
  end.

(** Line 48. *)
Definition cycle_rank (e v : Z) : Z := e - v + 1.

(** [np.trace]: the sum of the diagonal. *)
Definition trace (m : list (list float)) : float :=
  numpy.sum (imap (fun i row => nth i row 0%float) m).

(** What the report and the figure say the benchmark is: the fraction in
    the label that line 68 prints after the stored value, and the value in
    the title of line 80. *)
Definition label_of_expected : string := "(109/245)".
Definition title_g : string := "0.445".




Section Spectral.
(** [nx.normalized_laplacian_matrix(G).toarray()] and [scipy.linalg.pinv],
    the two library calls of the calculation. *)
Variable normalized_laplacian_matrix : Graph -> Py (list (list float)).
Variable pinv : list (list float) -> Py (list (list float)).

Definition calculate_theoretical_g_factor (self : AlphaGraphAnalysis)
  : Py float :=
  let! g := getattr (self_G self) in
  let v := number_of_nodes g in
  let e := number_of_edges g in
  let cycle_rank := cycle_rank e v in
  let! L_norm := normalized_laplacian_matrix g in
  let! L_norm_plus := pinv L_norm in
  let trace_L_plus := trace L_norm_plus in
  let! three_over_e2 :=
    (if e ^ 2 =? 0 then raise ZeroDivisionError
     else py_ret (float_of_Z 3 / float_of_Z (e ^ 2))%float) in
  let g_factor :=
    (three_over_e2 *
     (trace_L_plus + (float_of_Z cycle_rank / 3.0) - (1.0 / 6.0)))%float in
  let! expected := getattr (self_expected_g_from_paper self) in
  py_ret g_factor.

Definition visualize_graph (self : AlphaGraphAnalysis) : Py unit :=
  let! g := getattr (self_G self) in
  py_ret tt.

(** [main], with the g-factor it computes as its result. *)
Definition main : Py float :=
  let! analyzer := __init__ new_instance in
  let! _ := visualize_graph analyzer in
  let! theoretical_g := calculate_theoretical_g_factor analyzer in
  py_ret theoretical_g.
End Spectral.

End tetracyclic_analysis.

(** ** Exact sums

    The sum and the count of a list of rationals, in the form the
    statistics are reasoned about. *)

Module exact.
Definition total (xs : list Q) : Q := fold_right Qplus 0%Q xs.
Definition count (xs : list Q) : Q := inject_Z (Z.of_nat (length xs)).
End exact.

(** ** Series and files the properties are tried on *)

Module scenario.
Import numpy compute_gyration.

(** The table read from a series: record [i] is [(i, value)]. *)
Definition series (values : list float) : list (list float) :=
  imap (fun i v => [float_of_Z (Z.of_nat i); v]) values.

Definition alpha_series : list (list float) :=
  series [10; 10; 10; 10; 20; 20; 20; 20]%float.

Definition tree_series : list (list float) :=
  series [5; 5; 5; 5; 10; 10; 10; 10]%float.

(** Nine records of the same value 0.1: the equilibrated window holds three
    of them. *)
Definition constant_series : list (list float) :=
  series (repeat 0.1%float 9).


(** Eight records of value 0. *)
Definition zero_series : list (list float) :=
  series (repeat 0%float 8).

(** A reader of unsigned decimal integers, all the fields of the files
    below are. *)
Fixpoint digits_value (acc : Z) (s : string) : option Z :=
  match s with
  | EmptyString => Some acc
  | String c rest =>
      let n := Z.of_nat (nat_of_ascii c) in
      if (48 <=? n) && (n <=? 57)
      then digits_value (10 * acc + (n - 48)) rest
      else None
  end.

Definition read_digits (s : string) : option float :=
  match s with
  | EmptyString => None
  | _ => option_map float_of_Z (digits_value 0 s)
  end.

Definition alpha_file : list string :=
  [ "# Time-averaged data for fix rg_alpha"; "# TimeStep c_rg";
    "0 10"; "1 10"; "2 10"; "3 10"; "4 20"; "5 20"; "6 20"; "7 20" ]%string.

Definition tree_file : list string :=
  [ "# Time-averaged data for fix rg_tree"; "# TimeStep c_rg";
    "0 5"; "1 5"; "2 5"; "3 5"; ""; "4 10"; "5 10"; "6 10"; "7 10" ]%string.

Definition zero_file : list string :=
  [ "0 0"; "1 0"; "2 0"; "3 0"; "4 0"; "5 0"; "6 0"; "7 0" ]%string.

Definition header_only_file : list string :=
  [ "# Time-averaged data for fix rg_alpha" ]%string.

Definition files (filename : string) : option (list string) :=
  if String.eqb filename "gyration_alpha.dat" then Some alpha_file
  else if String.eqb filename "gyration_tree.dat" then Some tree_file
  else if String.eqb filename "gyration_zero.dat" then Some zero_file
  else if String.eqb filename "header_only.dat" then Some header_only_file
  else None.

End scenario.

(** ** The rest of [compute_gyration.py]: the figure's markers and the
    command line *)

Module compute_gyration_script.
Import compute_gyration.



Section CommandLine.
Variable str2float : string -> option float.
Variable fs : string -> option (list string).

(** Lines 162-171: the script run with [sys.argv = argv]. *)
Definition script (argv : list string) : Exit :=
  if negb (length argv =? 3)%nat then SysExit 1
  else
    let file_alpha := nth 1 argv EmptyString in
    let file_tree := nth 2 argv EmptyString in
    main str2float fs file_alpha file_tree.
End CommandLine.
End compute_gyration_script.

(** * Properties of [compute_gyration.py] *)

Import numpy compute_gyration.

(** ** The equilibration window (lines 36-46) *)

Lemma equilibration_window_small (n : Z) :
  n <= 1 -> equilibration_window n = None.
Proof.
  intros Hn. unfold equilibration_window.
  replace (1 <? n) with false by (symmetry; apply Z.ltb_ge; lia).
  rewrite andb_false_r.
  replace (n <=? 1) with true by (symmetry; apply Z.leb_le; lia).
  reflexivity.
Qed.

Lemma equilibration_window_large (n : Z) :
  1 < n ->
  equilibration_window n = Some (n * 3 / 4) /\ 0 < n * 3 / 4 < n.
Proof.
  intros Hn.
  assert (Hs : 0 < n * 3 / 4 < n).
  { split.
    - apply Z.div_str_pos. lia.
    - apply Z.div_lt_upper_bound; lia. }
  split; [|exact Hs].
  unfold equilibration_window.
  replace (n * 3 / 4 =? 0) with false by (symmetry; apply Z.eqb_neq; lia).
  replace (n <=? 1) with false by (symmetry; apply Z.leb_gt; lia).
  reflexivity.
Qed.

Lemma equilibration_window_Some (n start : Z) :
  equilibration_window n = Some start ->
  1 < n /\ start = n * 3 / 4 /\ 0 < start < n.
Proof.
  intros Hw. destruct (Z_le_gt_dec n 1) as [Hle|Hgt].
  - rewrite (equilibration_window_small n Hle) in Hw. discriminate.
  - destruct (equilibration_window_large n ltac:(lia)) as [Hw' Hs].
    rewrite Hw' in Hw. injection Hw as <-. repeat split; lia.
Qed.

Lemma slice_from_length (start : Z) (a : list float) :
  0 <= start <= Z.of_nat (length a) ->
  Z.of_nat (length (slice_from start a)) = Z.of_nat (length a) - start.
Proof.
  intros Hs. unfold slice_from. rewrite length_skipn. lia.
Qed.

(** What [analyse] does with a table of at least two columns. *)
Lemma analyse_Matrix (rows : list (list float)) :
  (2 <= length (hd [] rows))%nat ->
  exists ts rg,
    column (Matrix rows) 0 = inr ts /\ column (Matrix rows) 1 = inr rg /\
    length rg = length rows /\
    analyse (Matrix rows) =
      inr (match equilibration_window (Z.of_nat (length rows)) with
           | None => ReturnNone NotEnoughData
           | Some start =>
               ReturnTuple
                 {| avg_rg_squared := mean (square (slice_from start rg));
                    avg_rg := mean (slice_from start rg);
                    timesteps := ts;
                    rg_values := rg;
                    equilibrated_start := start;
                    equilibrated_rg := slice_from start rg |}
           end).
Proof.
  intros Hk.
  exists (map (fun r => nth 0 r PrimFloat.nan) rows),
         (map (fun r => nth 1 r PrimFloat.nan) rows).
  assert (H0 : (0 <? length (hd [] rows))%nat = true) by (apply Nat.ltb_lt; lia).
  assert (H1 : (1 <? length (hd [] rows))%nat = true) by (apply Nat.ltb_lt; lia).
  assert (H2 : (length (hd [] rows) <? 2)%nat = false) by (apply Nat.ltb_ge; lia).
  repeat split.
  - unfold column. now rewrite H0.
  - unfold column. now rewrite H1.
  - apply length_map.
  - unfold analyse, shape_item, column.
    cbn [ndim shape nth_error Nat.eqb py_bind py_ret].
    rewrite H2, H0, H1. cbn [py_bind py_ret].
    rewrite length_map.
    destruct (equilibration_window _); reflexivity.
Qed.

(** What a successful [analyse] returned, and from what. *)
Lemma analyse_ReturnTuple (data : ndarray) (a : Analysis) :
  analyse data = inr (ReturnTuple a) ->
  exists rows,
    data = Matrix rows /\ (2 <= length (hd [] rows))%nat /\
    column data 0 = inr (timesteps a) /\
    column data 1 = inr (rg_values a) /\
    length (rg_values a) = length rows /\
    equilibration_window (Z.of_nat (length rows)) = Some (equilibrated_start a) /\
    equilibrated_rg a = slice_from (equilibrated_start a) (rg_values a) /\
    avg_rg a = mean (equilibrated_rg a) /\
    avg_rg_squared a = mean (square (equilibrated_rg a)).
Proof.
  destruct data as [x|xs|rows]; [discriminate|discriminate|].
  intros Ha. exists rows.
  destruct (le_lt_dec 2 (length (hd [] rows))) as [Hk|Hk].
  - destruct (analyse_Matrix rows Hk) as (ts & rg & Hts & Hrg & Hlen & Han).
    rewrite Han in Ha.
    destruct (equilibration_window (Z.of_nat (length rows))) as [start|];
      [|discriminate].
    injection Ha as <-. cbn. repeat split; auto.
  - exfalso. unfold analyse, shape_item in Ha.
    cbn [ndim shape nth_error Nat.eqb py_bind py_ret] in Ha.
    replace (length (hd [] rows) <? 2)%nat with true in Ha
      by (symmetry; apply Nat.ltb_lt; lia).
    discriminate.
Qed.


(** C5: for a series of N samples (a loaded table of at least two columns),
    N <= 1 makes the window selection give up with the "Not enough data"
    failure; otherwise the window is [start, N) with start = (3 * N) // 4,
    the value forced to 1 should that quotient be 0; the start is 3 for
    N = 4 and N = 5, 2 for N = 3 and 1 for N = 2; and 0 < start < N. *)
Theorem window_selection (rows : list (list float)) :
  (2 <= length (hd [] rows))%nat ->
  let N := Z.of_nat (length rows) in
  (forall n : Z, n <= 1 -> equilibration_window n = None) /\
  (N <= 1 -> analyse (Matrix rows) = inr (ReturnNone NotEnoughData)) /\
  (1 < N ->
   exists a,
     analyse (Matrix rows) = inr (ReturnTuple a) /\
     equilibration_window N = Some (equilibrated_start a) /\
     equilibrated_start a = (if N * 3 / 4 =? 0 then 1 else N * 3 / 4) /\
     0 < equilibrated_start a < N /\
     Z.of_nat (length (rg_values a)) = N /\
     equilibrated_rg a = skipn (Z.to_nat (equilibrated_start a)) (rg_values a) /\
     Z.of_nat (length (equilibrated_rg a)) = N - equilibrated_start a) /\
  equilibration_window 4 = Some 3 /\
  equilibration_window 5 = Some 3 /\
  equilibration_window 3 = Some 2 /\
  equilibration_window 2 = Some 1.
Proof.
  intros Hk N.
  destruct (analyse_Matrix rows Hk) as (ts & rg & _ & _ & Hlen & Han).
  split; [exact equilibration_window_small|].
  split; [|split; [|repeat split; reflexivity]].
  - intros HN. rewrite Han. fold N.
    now rewrite (equilibration_window_small N HN).
  - intros HN. destruct (equilibration_window_large N HN) as [Hw Hs].
    rewrite Han. fold N. rewrite Hw. eexists. split; [reflexivity|].
    cbn [equilibrated_start rg_values equilibrated_rg].
    split; [reflexivity|]. split.
    + replace (N * 3 / 4 =? 0) with false by (symmetry; apply Z.eqb_neq; lia).
      reflexivity.
    + split; [exact Hs|]. split; [subst N; now rewrite Hlen|].
      split; [reflexivity|].
      rewrite slice_from_length; subst N; rewrite Hlen; lia.
Qed.

Lemma window_selection_witness :
  equilibration_window 4 = Some 3 /\
  exists a,
    analyse (Matrix scenario.alpha_series) = inr (ReturnTuple a) /\
    equilibrated_start a = 6.
Proof.
  destruct (window_selection scenario.alpha_series ltac:(vm_compute; lia))
    as (_ & _ & Hbig & H4 & _).
  split; [exact H4|].
  destruct (Hbig ltac:(vm_compute; reflexivity)) as (a & Ha & _ & Hs & _).
  exists a. split; [exact Ha|]. rewrite Hs. reflexivity.
Defined.

(** ** Loading (lines 24-44) *)

Section LoadingProperties.
Variable str2float : string -> option float.

Lemma convert_row_valid (toks : list string) (r : list float) :
  convert_row str2float toks = inr r ->
  forallb (fun t => match str2float t with Some _ => true | None => false end)
          toks = true.
Proof.
  revert r. induction toks as [|t toks IH]; intros r; cbn [convert_row forallb].
  - reflexivity.
  - destruct (str2float t) as [x|]; [|discriminate].
    destruct (convert_row str2float toks) as [e|xs]; [discriminate|].
    intros _. cbn [andb]. exact (IH xs eq_refl).
Qed.




Variable fs : string -> option (list string).


(** A file of comment lines only runs into the [except] clause: the empty
    array has no [shape[1]]. *)
Lemma comment_only_file (filename : string) (lines : list string) :
  fs filename = Some lines ->
  Forall (fun line => is_data_line line = false) lines ->
  get_avg_rg_from_file str2float fs filename =
    ReturnNone (ErrorOccurred IndexError).
Proof.
  intros Hfs Hall. unfold get_avg_rg_from_file, loadtxt. rewrite Hfs.
  assert (Hr : forall k, read_rows str2float k lines = inr []).
  { clear Hfs. induction Hall as [|line lines Hl _ IH]; intros k; [reflexivity|].
    cbn [read_rows]. unfold is_data_line in Hl.
    destruct (fields line); [apply IH|discriminate]. }
  rewrite Hr. reflexivity.
Qed.

(** C6: with the Alpha series of values 10,10,10,10,20,20,20,20 and the Tree
    series of values 5,5,5,5,10,10,10,10 at timesteps 0..7, both windows
    start at index 6, the equilibrated values are [20,20] and [10,10], the
    mean squares are exactly 400 and 100, and the ratio is exactly 4.0. *)
Theorem end_to_end_scenario
  (file_alpha file_tree : string) (lines_alpha lines_tree : list string) :
  fs file_alpha = Some lines_alpha ->
  fs file_tree = Some lines_tree ->
  loadtxt str2float lines_alpha = inr (Matrix scenario.alpha_series) ->
  loadtxt str2float lines_tree = inr (Matrix scenario.tree_series) ->
  exists alpha tree,
    get_avg_rg_from_file str2float fs file_alpha = ReturnTuple alpha /\
    get_avg_rg_from_file str2float fs file_tree = ReturnTuple tree /\
    equilibrated_start alpha = 6 /\ equilibrated_start tree = 6 /\
    equilibrated_rg alpha = [20; 20]%float /\
    equilibrated_rg tree = [10; 10]%float /\
    avg_rg_squared alpha = 400%float /\
    avg_rg_squared tree = 100%float /\
    compute_gyration.main str2float fs file_alpha file_tree = Reported 4%float.
Proof.
  intros Hfa Hft Hla Hlt.
  unfold compute_gyration.main, get_avg_rg_from_file.
  rewrite Hfa, Hft, Hla, Hlt. cbn [py_bind].
  eexists; eexists.
  split; [vm_compute; reflexivity|].
  split; [vm_compute; reflexivity|].
  repeat split; vm_compute; reflexivity.
Qed.
End LoadingProperties.


Lemma end_to_end_scenario_witness :
  exists alpha tree,
    get_avg_rg_from_file scenario.read_digits scenario.files
      "gyration_alpha.dat" = ReturnTuple alpha /\
    get_avg_rg_from_file scenario.read_digits scenario.files
      "gyration_tree.dat" = ReturnTuple tree /\
    equilibrated_start alpha = 6 /\ equilibrated_start tree = 6 /\
    equilibrated_rg alpha = [20; 20]%float /\
    equilibrated_rg tree = [10; 10]%float /\
    avg_rg_squared alpha = 400%float /\
    avg_rg_squared tree = 100%float /\
    compute_gyration.main scenario.read_digits scenario.files
      "gyration_alpha.dat" "gyration_tree.dat" = Reported 4%float.
Proof.
  apply (end_to_end_scenario scenario.read_digits scenario.files
           "gyration_alpha.dat" "gyration_tree.dat"
           scenario.alpha_file scenario.tree_file);
    vm_compute; reflexivity.
Defined.

(** ** The moments (lines 48-55) *)

Section ExactMoments.
Import exact.
Local Open Scope Q_scope.

Lemma fold_left_Qplus (xs : list Q) :
  forall a, fold_left Qplus xs a == a + total xs.
Proof.
  induction xs as [|x xs IH]; intros a; cbn [fold_left total fold_right].
  - ring.
  - rewrite IH. unfold total. ring.
Qed.

Lemma sum_total (xs : list Q) : sum xs == total xs.
Proof.
  unfold sum. cbn [f_add f_of_nat exact_arith]. rewrite fold_left_Qplus.
  change (inject_Z (Z.of_nat 0)) with 0. ring.
Qed.

Lemma count_cons (x : Q) (xs : list Q) : count (x :: xs) == count xs + 1.
Proof.
  unfold count. cbn [length]. rewrite Nat2Z.inj_succ, <- Z.add_1_r.
  rewrite inject_Z_plus. reflexivity.
Qed.

Lemma count_pos (xs : list Q) : xs <> [] -> 0 < count xs.
Proof.
  intros Hne. destruct xs as [|x xs]; [congruence|].
  unfold count. change 0 with (inject_Z 0). rewrite <- Zlt_Qlt.
  cbn [length]. lia.
Qed.

Lemma count_nonzero (xs : list Q) : xs <> [] -> ~ count xs == 0.
Proof.
  intros Hne H0. pose proof (count_pos xs Hne) as Hpos.
  rewrite H0 in Hpos. now apply Qlt_irrefl in Hpos.
Qed.

Lemma mean_total (xs : list Q) : mean xs == total xs / count xs.
Proof.
  unfold mean. cbn [f_div f_of_nat exact_arith]. fold (count xs).
  rewrite sum_total. reflexivity.
Qed.

Lemma count_same_length (xs ys : list Q) :
  length ys = length xs -> count ys == count xs.
Proof. intros Hl. unfold count. now rewrite Hl. Qed.

Lemma length_square (xs : list Q) : length (square xs) = length xs.
Proof. apply length_map. Qed.

(** The sum of the squared deviations from any centre [m]. *)
Lemma total_deviations (m : Q) (xs : list Q) :
  total (square (map (fun x => f_sub x m) xs)) ==
  total (square xs) - 2 * m * total xs + count xs * m * m.
Proof.
  induction xs as [|x xs IH].
  - cbn. unfold count. cbn. ring.
  - cbn [map square total fold_right]. fold (square xs).
    fold (square (map (fun x => f_sub x m) xs)).
    fold (total (square xs)) (total xs)
         (total (square (map (fun x => f_sub x m) xs))).
    rewrite IH, count_cons. cbn [f_sub f_mul exact_arith]. ring.
Qed.

(** The mean of the squares exceeds the square of the mean by the
    variance. *)
Lemma mean_square_minus_square_mean (xs : list Q) :
  xs <> [] ->
  mean (square xs) - mean xs * mean xs == var xs.
Proof.
  intros Hne. pose proof (count_nonzero xs Hne) as Hnz.
  unfold var. cbv zeta.
  rewrite (mean_total (square (map _ xs))), total_deviations.
  rewrite (mean_total (square xs)).
  rewrite (count_same_length xs (square xs)) by apply length_square.
  rewrite (count_same_length xs (square (map _ xs)))
    by (rewrite length_square; apply length_map).
  rewrite (mean_total xs).
  now field.
Qed.

Lemma total_constant (c : Q) (xs : list Q) :
  Forall (fun x => x == c) xs -> total xs == count xs * c.
Proof.
  induction 1 as [|x xs Hx _ IH].
  - unfold count. cbn. ring.
  - cbn [total fold_right]. fold (total xs). rewrite IH, count_cons, Hx. ring.
Qed.

Lemma total_square_constant (c : Q) (xs : list Q) :
  Forall (fun x => x == c) xs -> total (square xs) == count xs * (c * c).
Proof.
  induction 1 as [|x xs Hx _ IH].
  - unfold count. cbn. ring.
  - cbn [square map total fold_right]. fold (square xs).
    fold (total (square xs)).
    rewrite IH, count_cons. cbn [f_mul exact_arith]. rewrite Hx. ring.
Qed.

Lemma constant_mean_square (c : Q) (xs : list Q) :
  xs <> [] -> Forall (fun x => x == c) xs ->
  mean (square xs) == mean xs * mean xs.
Proof.
  intros Hne Hc. pose proof (count_nonzero xs Hne) as Hnz.
  rewrite (mean_total (square xs)), (mean_total xs).
  rewrite (count_same_length xs (square xs)) by apply length_square.
  rewrite (total_square_constant c xs Hc), (total_constant c xs Hc).
  now field.
Qed.

End ExactMoments.



(** ** The ratio (lines 94-96) *)

Lemma eqb_zero_spec (t : float) :
  (t =? 0)%float = true -> exists s, Prim2SF t = S754_zero s.
Proof.
  rewrite FloatAxioms.eqb_spec. change (Prim2SF 0) with (S754_zero false).
  destruct (Prim2SF t) as [s|s| |s m e]; try (now exists s).
  - destruct s; discriminate.
  - discriminate.
  - destruct s; discriminate.
Qed.

(** A binary64 quotient by a zero of either sign is an infinity or NaN. *)
Lemma div_by_zero_not_finite (a t : float) :
  (t =? 0)%float = true -> is_finite (a / t) = false.
Proof.
  intros Ht. destruct (eqb_zero_spec t Ht) as [s Hs].
  unfold is_finite, is_nan, is_infinity.
  rewrite !FloatAxioms.eqb_spec, FloatAxioms.abs_spec, FloatAxioms.div_spec, Hs.
  destruct (Prim2SF a) as [sa|sa| |sa m e]; destruct s; try destruct sa;
    reflexivity.
Qed.

(** C7, as the code has it: once both files are loaded the ratio never
    fails; it is the binary64 quotient of the two mean squares, reported as
    it comes, and a Tree mean square equal to 0 makes it an infinity or
    NaN. *)
Theorem ratio_is_plain_quotient
  (str2float : string -> option float) (fs : string -> option (list string))
  (file_alpha file_tree : string) (alpha tree : Analysis) :
  get_avg_rg_from_file str2float fs file_alpha = ReturnTuple alpha ->
  get_avg_rg_from_file str2float fs file_tree = ReturnTuple tree ->
  compute_gyration.main str2float fs file_alpha file_tree =
    Reported (avg_rg_squared alpha / avg_rg_squared tree)%float /\
  ((avg_rg_squared tree =? 0)%float = true ->
   is_finite (avg_rg_squared alpha / avg_rg_squared tree) = false).
Proof.
  intros Ha Ht. split.
  - unfold compute_gyration.main. rewrite Ha, Ht. reflexivity.
  - apply div_by_zero_not_finite.
Qed.

Lemma ratio_is_plain_quotient_witness :
  exists alpha tree,
    compute_gyration.main scenario.read_digits scenario.files
      "gyration_alpha.dat" "gyration_zero.dat" =
      Reported (avg_rg_squared alpha / avg_rg_squared tree)%float /\
    is_finite (avg_rg_squared alpha / avg_rg_squared tree) = false.
Proof.
  assert (Ha : exists a, get_avg_rg_from_file scenario.read_digits
                 scenario.files "gyration_alpha.dat" = ReturnTuple a)
    by (eexists; vm_compute; reflexivity).
  assert (Ht : exists t, get_avg_rg_from_file scenario.read_digits
                 scenario.files "gyration_zero.dat" = ReturnTuple t /\
                 (avg_rg_squared t =? 0)%float = true)
    by (eexists; split; vm_compute; reflexivity).
  destruct Ha as [a Ha]. destruct Ht as (t & Ht & Hz).
  exists a, t.
  destruct (ratio_is_plain_quotient scenario.read_digits scenario.files
              "gyration_alpha.dat" "gyration_zero.dat" a t Ha Ht) as [Hm Hf].
  split; [exact Hm|exact (Hf Hz)].
Defined.

(** C7, as stated, fails: a Tree series of zeros has mean square 0, and the
    ratio against the Alpha series is reported as +infinity, not refused;
    against itself it is reported as NaN. *)
Lemma zero_tree_mean_square_is_reported :
  (exists tree,
     analyse (Matrix scenario.zero_series) = inr (ReturnTuple tree) /\
     (avg_rg_squared tree =? 0)%float = true) /\
  compute_gyration.main scenario.read_digits scenario.files
    "gyration_alpha.dat" "gyration_zero.dat" = Reported infinity /\
  compute_gyration.main scenario.read_digits scenario.files
    "gyration_zero.dat" "gyration_zero.dat" = Reported nan.
Proof.
  split; [eexists; split; vm_compute; reflexivity|].
  split; vm_compute; reflexivity.
Qed.

(** * Properties of [tetracyclic_analysis.py] *)

Import networkx tetracyclic_analysis.

(** ** The graph networkx builds (lines 25, 34-36) *)

Lemma neighbours_insert (g : Graph) (n w : Z) (s : gset Z) :
  neighbours (<[n := s]> g) w = if decide (w = n) then s else neighbours g w.
Proof.
  unfold neighbours. destruct (decide (w = n)) as [->|Hne].
  - now rewrite lookup_insert_eq.
  - now rewrite lookup_insert_ne by congruence.
Qed.

Lemma neighbours_add_node (g : Graph) (n w : Z) :
  neighbours (add_node g n) w = neighbours g w.
Proof.
  unfold add_node. destruct (g !! n) as [s|] eqn:Hn; [reflexivity|].
  rewrite neighbours_insert. destruct (decide (w = n)) as [->|]; [|reflexivity].
  unfold neighbours. now rewrite Hn.
Qed.

Lemma dom_add_node (g : Graph) (n : Z) : dom (add_node g n) = dom g ∪ {[n]}.
Proof.
  unfold add_node. destruct (g !! n) as [s|] eqn:Hn.
  - assert (n ∈ dom g) by (apply elem_of_dom; eauto). set_solver.
  - rewrite dom_insert_L. set_solver.
Qed.

Lemma neighbours_add_edge (g : Graph) (u v w : Z) :
  neighbours (add_edge g (u, v)) w =
  neighbours g w ∪ (if decide (w = u) then {[v]} else ∅)
                 ∪ (if decide (w = v) then {[u]} else ∅).
Proof.
  unfold add_edge. rewrite !neighbours_insert, !neighbours_add_node.
  destruct (decide (w = v)) as [->|Hv]; destruct (decide (v = u)) as [->|Hu];
    repeat (case_decide; try congruence); set_solver.
Qed.

Lemma dom_add_edge (g : Graph) (u v : Z) :
  dom (add_edge g (u, v)) = dom g ∪ {[u; v]}.
Proof.
  unfold add_edge. rewrite !dom_insert_L, !dom_add_node. set_solver.
Qed.

Lemma neighbours_add_edges_from (edges : list (Z * Z)) :
  forall (g : Graph) (w x : Z),
    x ∈ neighbours (add_edges_from g edges) w <->
    x ∈ neighbours g w \/ In (w, x) edges \/ In (x, w) edges.
Proof.
  unfold add_edges_from.
  induction edges as [|[u v] edges IH]; intros g w x; cbn [fold_left In].
  - tauto.
  - rewrite IH, neighbours_add_edge.
    repeat case_decide; subst; rewrite ?elem_of_union, ?elem_of_singleton;
      split; intros Hx; intuition (try congruence; set_solver).
Qed.

Lemma dom_add_edges_from (edges : list (Z * Z)) :
  forall (g : Graph) (n : Z),
    n ∈ dom (add_edges_from g edges) <->
    n ∈ dom g \/ exists m, In (n, m) edges \/ In (m, n) edges.
Proof.
  unfold add_edges_from.
  induction edges as [|[u v] edges IH]; intros g n; cbn [fold_left In].
  - split; [tauto|]. intros [H|[m [[]|[]]]]. exact H.
  - rewrite IH, dom_add_edge. rewrite !elem_of_union, elem_of_singleton.
    split.
    + intros [[Hd|[->|Hv]]|[m Hm]].
      * now left.
      * right. exists v. left. now left.
      * apply elem_of_singleton in Hv as ->. right. exists u. right. now left.
      * right. exists m. tauto.
    + intros [Hd|[m [[Heq|Hin]|[Heq|Hin]]]].
      * left. now left.
      * injection Heq as -> ->. left. right. now left.
      * right. exists m. now left.
      * injection Heq as -> ->. left. right. right. now apply elem_of_singleton.
      * right. exists m. now right.
Qed.

Lemma dom_add_nodes_from (nodes : list Z) :
  forall (g : Graph) (n : Z),
    n ∈ dom (add_nodes_from g nodes) <-> n ∈ dom g \/ In n nodes.
Proof.
  unfold add_nodes_from.
  induction nodes as [|m nodes IH]; intros g n; cbn [fold_left In].
  - tauto.
  - rewrite IH, dom_add_node, elem_of_union, elem_of_singleton.
    intuition congruence.
Qed.

Lemma neighbours_add_nodes_from (nodes : list Z) :
  forall (g : Graph) (w : Z),
    neighbours (add_nodes_from g nodes) w = neighbours g w.
Proof.
  unfold add_nodes_from.
  induction nodes as [|m nodes IH]; intros g w; cbn [fold_left]; [reflexivity|].
  now rewrite IH, neighbours_add_node.
Qed.

Lemma has_node_graph_of (nodes : list Z) (edges : list (Z * Z)) (n : Z) :
  has_node (graph_of nodes edges) n = true <->
  In n nodes \/ exists m, In (n, m) edges \/ In (m, n) edges.
Proof.
  unfold graph_of, empty_graph, has_node.
  rewrite bool_decide_eq_true, <- elem_of_dom.
  rewrite dom_add_edges_from, dom_add_nodes_from, dom_empty_L.
  set_solver.
Qed.

Lemma has_edge_graph_of (nodes : list Z) (edges : list (Z * Z)) (u v : Z) :
  has_edge (graph_of nodes edges) u v = true <->
  In (u, v) edges \/ In (v, u) edges.
Proof.
  unfold graph_of, empty_graph, has_edge. rewrite bool_decide_eq_true.
  rewrite neighbours_add_edges_from, neighbours_add_nodes_from.
  unfold neighbours. rewrite lookup_empty. cbn [default]. set_solver.
Qed.



(** ** The factory (lines 23-36) and the constructor (lines 18-21) *)

(** A call never yields a value: nothing these displays denote is callable. *)
Lemma eval_Call_raises (callee : expr) (args : list expr) (v : value) :
  eval (Call callee args) <> inr v.
Proof.
  cbn [eval]. destruct (eval callee) as [e|f]; cbn [py_bind]; [discriminate|].
  match goal with
  | |- context [py_bind ?m _] => destruct m as [e|vs]
  end; cbn [py_bind]; discriminate.
Qed.

Lemma create_alpha_graph_TypeError (self : AlphaGraphAnalysis) :
  create_alpha_graph self = inl TypeError.
Proof. reflexivity. Qed.

(** C1: the factory does not return K(3,3), nor any graph: evaluating the
    edge list raises [TypeError].  With the comma after [(3, 6)] in place,
    the lists make a graph of the 6 vertices 1..6 and 9 edges in which 1 is
    joined to 5 and not to 6, so that graph is not K(3,3) either. *)
Theorem create_alpha_graph_returns_no_graph (self : AlphaGraphAnalysis) :
  create_alpha_graph self = inl TypeError /\
  (forall g : Graph, create_alpha_graph self <> inr g) /\
  exists g : Graph,
    build_from nodes_display edges_as_listed = inr g /\
    number_of_nodes g = 6 /\
    (forall n : Z, has_node g n = true <-> 1 <= n <= 6) /\
    number_of_edges g = 9 /\
    has_edge g 1 5 = true /\
    has_edge g 1 6 = false /\
    ~ is_K33 g.
Proof.
  split; [apply create_alpha_graph_TypeError|].
  split; [intros g; rewrite create_alpha_graph_TypeError; discriminate|].
  eexists. split; [vm_compute; reflexivity|].
  match goal with
  | |- context [number_of_nodes ?g] => set (G := g)
  end.
  assert (H15 : has_edge G 1 5 = true) by (vm_compute; reflexivity).
  split; [vm_compute; reflexivity|]. split.
  - intros n.
    change G with (graph_of [1; 2; 3; 4; 5; 6]
                     [(1, 2); (1, 4); (1, 5); (3, 2); (3, 4); (3, 6);
                      (5, 2); (5, 4); (5, 6)]).
    rewrite has_node_graph_of. cbn [In]. split.
    + intros [Hn|[m Hm]].
      * lia.
      * destruct Hm as [Hm|Hm];
          repeat (destruct Hm as [Hm|Hm]; [injection Hm as <- <-; lia|]);
          destruct Hm.
    + intros Hn. left. lia.
  - split; [vm_compute; reflexivity|].
    split; [exact H15|]. split; [vm_compute; reflexivity|].
    intros (_ & _ & Hedges). specialize (Hedges 1 5).
    rewrite H15 in Hedges. vm_compute in Hedges. discriminate.
Qed.

(** C2: whatever object it is called on, [create_alpha_graph] raises
    [TypeError] before any graph is returned, and so do [__init__] and
    [main], whatever the linear-algebra routines would compute: no g-factor
    is ever produced.  The exception comes from the sixth item of the edge
    list, the tuple [(3, 6)] applied to the arguments 5 and 2; the node list
    and the five items before it evaluate. *)
Theorem alpha_graph_is_never_built
  (self : AlphaGraphAnalysis)
  (normalized_laplacian_matrix : Graph -> Py (list (list float)))
  (pinv : list (list float) -> Py (list (list float))) :
  create_alpha_graph self = inl TypeError /\
  __init__ self = inl TypeError /\
  tetracyclic_analysis.main normalized_laplacian_matrix pinv = inl TypeError /\
  (exists before after,
     edges_display =
       ListDisplay (before ++ Call (pair 3 6) [Num 5; Num 2] :: after) /\
     length before = 5%nat /\
     (exists vs, eval (ListDisplay before) = inr vs) /\
     (exists vs, eval nodes_display = inr vs)) /\
  eval (Call (pair 3 6) [Num 5; Num 2]) = inl TypeError.
Proof.
  split; [reflexivity|]. split; [reflexivity|]. split; [reflexivity|].
  split; [|reflexivity].
  exists [pair 1 2; pair 1 4; pair 1 5; pair 3 2; pair 3 4],
         [pair 5 4; pair 5 6].
  split; [reflexivity|]. split; [reflexivity|].
  split; eexists; vm_compute; reflexivity.
Qed.

(** ** The calculation (lines 38-71) *)

Lemma cycle_rank_of_six_vertices_nine_edges : cycle_rank 9 6 = 4.
Proof. reflexivity. Qed.

(** On an instance whose attributes are set, the value returned is the
    product line 60 writes, over whatever the two library calls return. *)
Lemma calculate_theoretical_g_factor_formula
  (normalized_laplacian_matrix : Graph -> Py (list (list float)))
  (pinv : list (list float) -> Py (list (list float)))
  (g : Graph) (expected : float) (L_norm L_norm_plus : list (list float)) :
  normalized_laplacian_matrix g = inr L_norm ->
  pinv L_norm = inr L_norm_plus ->
  number_of_edges g <> 0 ->
  calculate_theoretical_g_factor normalized_laplacian_matrix pinv
    {| self_G := Some g; self_expected_g_from_paper := Some expected |} =
  inr (float_of_Z 3 / float_of_Z (number_of_edges g ^ 2) *
       (trace L_norm_plus
        + float_of_Z (cycle_rank (number_of_edges g) (number_of_nodes g)) / 3
        - 1 / 6))%float.
Proof.
  intros HL Hp He. unfold calculate_theoretical_g_factor.
  cbn [self_G self_expected_g_from_paper getattr py_bind py_ret].
  rewrite HL. cbn [py_bind]. rewrite Hp. cbn [py_bind].
  replace (number_of_edges g ^ 2 =? 0) with false
    by (symmetry; apply Z.eqb_neq; nia).
  reflexivity.
Qed.

(** ** The benchmark (lines 21, 68 and 80) *)


(** * Further properties of [compute_gyration.py] *)

Import compute_gyration_script.

Lemma column_length (rows : list (list float)) (j : nat) (xs : list float) :
  column (Matrix rows) j = inr xs -> length xs = length rows.
Proof.
  unfold column. destruct (_ <? _)%nat; [|discriminate].
  intros [= <-]. apply length_map.
Qed.

(** ** The tuple returned (lines 33-64) *)

Lemma analyse_tuple_invariants (data : ndarray) (a : Analysis) :
  analyse data = inr (ReturnTuple a) ->
  let N := Z.of_nat (length (rg_values a)) in
  let L := Z.of_nat (length (equilibrated_rg a)) in
  2 <= N /\
  length (timesteps a) = length (rg_values a) /\
  equilibrated_start a = N * 3 / 4 /\
  rg_values a =
    firstn (Z.to_nat (equilibrated_start a)) (rg_values a)
    ++ equilibrated_rg a /\
  L = N - equilibrated_start a /\
  N <= 4 * L < N + 4.
Proof.
  intros Ha N L.
  destruct (analyse_ReturnTuple data a Ha)
    as (rows & -> & _ & Hts & Hrg & Hlen & Hw & Heq & _).
  apply column_length in Hts. apply column_length in Hrg.
  apply equilibration_window_Some in Hw. destruct Hw as (HN & Hs & Hb).
  assert (HNrows : N = Z.of_nat (length rows)) by (subst N; now rewrite Hlen).
  assert (HL : L = N - equilibrated_start a).
  { subst L. rewrite Heq. unfold slice_from. rewrite length_skipn. lia. }
  split; [lia|]. split; [congruence|]. split; [congruence|].
  split; [rewrite Heq; unfold slice_from; symmetry; apply firstn_skipn|].
  split; [exact HL|].
  rewrite HL, Hs, <- HNrows.
  pose proof (Z.div_mod (N * 3) 4 ltac:(lia)) as Hdm.
  pose proof (Z.mod_pos_bound (N * 3) 4 ltac:(lia)) as Hmb.
  lia.
Qed.

(** X1: whatever table [analyse] returns a tuple for, the tuple holds at
    least two samples, as many timesteps as values, the window starts at
    [(3 * N) // 4] exactly (the forcing of the start to 1 never applies),
    the values are the burn-in followed by the window, and the window is the
    last quarter of the samples rounded up. *)
Theorem returned_tuple_shape (data : ndarray) (a : Analysis) :
  analyse data = inr (ReturnTuple a) ->
  let N := Z.of_nat (length (rg_values a)) in
  let L := Z.of_nat (length (equilibrated_rg a)) in
  2 <= N /\
  length (timesteps a) = length (rg_values a) /\
  equilibrated_start a = N * 3 / 4 /\
  rg_values a =
    firstn (Z.to_nat (equilibrated_start a)) (rg_values a)
    ++ equilibrated_rg a /\
  L = N - equilibrated_start a /\
  N <= 4 * L < N + 4.
Proof. exact (analyse_tuple_invariants data a). Qed.

Lemma returned_tuple_shape_witness :
  exists a,
    analyse (Matrix scenario.constant_series) = inr (ReturnTuple a) /\
    Z.of_nat (length (rg_values a)) = 9 /\
    equilibrated_start a = 6 /\
    Z.of_nat (length (equilibrated_rg a)) = 3.
Proof.
  assert (Ha : exists a, analyse (Matrix scenario.constant_series)
                            = inr (ReturnTuple a) /\
                          Z.of_nat (length (rg_values a)) = 9)
    by (eexists; split; vm_compute; reflexivity).
  destruct Ha as (a & Ha & HN). exists a.
  destruct (returned_tuple_shape _ a Ha) as (_ & _ & Hs & _ & HL & _).
  rewrite HN in Hs, HL. split; [exact Ha|]. split; [exact HN|].
  split; [rewrite Hs; reflexivity|]. rewrite HL, Hs. reflexivity.
Defined.

(** ** The equilibration marker (lines 112 and 130) *)




(** ** What a file comes back with (lines 20-68) *)

Section FileOutcomes.
Variable str2float : string -> option float.
Variable fs : string -> option (list string).

Lemma squeeze_Matrix (rows rows' : list (list float)) :
  squeeze rows = Matrix rows' -> rows' = rows /\ (2 <= length rows)%nat.
Proof.
  destruct rows as [|r [|r2 rs]].
  - discriminate.
  - destruct r as [|x [|y r]]; discriminate.
  - unfold squeeze.
    destruct (forallb (fun r0 => (length r0 =? 1)%nat) (r :: r2 :: rs));
      [destruct r as [|x [|y r]]; discriminate|].
    destruct r as [|x [|y r]]; intros [= <-]; cbn [length]; split;
      (reflexivity || lia).
Qed.

Lemma squeeze_table (rows : list (list float)) :
  (2 <= length rows)%nat -> (2 <= length (hd [] rows))%nat ->
  squeeze rows = Matrix rows.
Proof.
  destruct rows as [|r [|r2 rs]]; cbn [length hd]; intros Hn Hk; try lia.
  destruct r as [|x [|y r]]; cbn [length] in Hk; try lia.
  reflexivity.
Qed.

Lemma analyse_NotEnoughData (data : ndarray) :
  analyse data = inr (ReturnNone NotEnoughData) ->
  exists rows, data = Matrix rows /\ (length rows <= 1)%nat.
Proof.
  destruct data as [x|xs|rows]; [discriminate|discriminate|].
  intros Ha. exists rows. split; [reflexivity|].
  destruct (le_lt_dec 2 (length (hd [] rows))) as [Hk|Hk].
  - destruct (analyse_Matrix rows Hk) as (ts & rg & _ & _ & _ & Han).
    rewrite Han in Ha.
    destruct (equilibration_window (Z.of_nat (length rows))) as [s|] eqn:Hw;
      [discriminate|].
    destruct (Z_le_gt_dec (Z.of_nat (length rows)) 1) as [Hle|Hgt]; [lia|].
    destruct (equilibration_window_large (Z.of_nat (length rows)) ltac:(lia))
      as [Hw' _].
    rewrite Hw' in Hw. discriminate.
  - exfalso. unfold analyse, shape_item in Ha.
    cbn [ndim shape nth_error Nat.eqb py_bind py_ret] in Ha.
    replace (length (hd [] rows) <? 2)%nat with true in Ha
      by (symmetry; apply Nat.ltb_lt; lia).
    discriminate.
Qed.

(** X3: a file yields a tuple exactly when it exists, every data line reads
    as a row of numbers with the same number of fields, and the rows read
    are at least two, of at least two fields each. *)
Theorem returns_tuple_iff (filename : string) :
  (exists a, get_avg_rg_from_file str2float fs filename = ReturnTuple a) <->
  (exists lines rows,
     fs filename = Some lines /\
     read_rows str2float None lines = inr rows /\
     (2 <= length rows)%nat /\ (2 <= length (hd [] rows))%nat).
Proof.
  unfold get_avg_rg_from_file, loadtxt. split.
  - intros [a Ha]. destruct (fs filename) as [lines|]; [|discriminate].
    exists lines.
    destruct (read_rows str2float None lines) as [e|rows]; [discriminate|].
    exists rows. cbn [py_bind py_ret] in Ha.
    destruct (analyse (squeeze rows)) as [e|r] eqn:Han; [discriminate|].
    subst r. destruct (analyse_ReturnTuple _ a Han) as (rows' & Hsq & Hk & _).
    apply squeeze_Matrix in Hsq. destruct Hsq as [-> Hn]. auto.
  - intros (lines & rows & Hfs & Hr & Hn & Hk). rewrite Hfs, Hr.
    cbn [py_bind py_ret]. rewrite (squeeze_table rows Hn Hk).
    destruct (analyse_Matrix rows Hk) as (ts & rg & _ & _ & _ & Han).
    rewrite Han.
    destruct (equilibration_window_large (Z.of_nat (length rows)) ltac:(lia))
      as [Hw _].
    rewrite Hw. eexists. reflexivity.
Qed.

(** X4: no file makes [get_avg_rg_from_file] print "Not enough data": an
    array [loadtxt] returns with two axes has at least two rows, so the
    check of line 42 never fires on a loaded file. *)
Theorem not_enough_data_is_never_printed (filename : string) :
  get_avg_rg_from_file str2float fs filename <> ReturnNone NotEnoughData.
Proof.
  unfold get_avg_rg_from_file, loadtxt.
  destruct (fs filename) as [lines|]; [|discriminate].
  destruct (read_rows str2float None lines) as [e|rows]; [discriminate|].
  cbn [py_bind py_ret].
  destruct (analyse (squeeze rows)) as [e|r] eqn:Han; [discriminate|].
  intros ->. apply analyse_NotEnoughData in Han.
  destruct Han as (rows' & Hsq & Hle).
  apply squeeze_Matrix in Hsq. destruct Hsq as [-> Hn]. lia.
Qed.

Lemma convert_row_length (toks : list string) (r : list float) :
  convert_row str2float toks = inr r -> length r = length toks.
Proof.
  revert r. induction toks as [|t toks IH]; intros r; cbn [convert_row].
  - intros [= <-]. reflexivity.
  - destruct (str2float t) as [x|]; [|discriminate].
    destruct (convert_row str2float toks) as [e|xs]; [discriminate|].
    intros [= <-]. cbn [length]. f_equal. exact (IH xs eq_refl).
Qed.

Lemma convert_row_raises (toks : list string) (e : PyExc) :
  convert_row str2float toks = inl e -> e = ValueError.
Proof.
  induction toks as [|t toks IH]; cbn [convert_row]; [discriminate|].
  destruct (str2float t) as [x|]; [|now intros [= <-]].
  destruct (convert_row str2float toks) as [e'|xs]; [|discriminate].
  intros [= <-]. now apply IH.
Qed.

Lemma read_rows_raises (lines : list string) :
  forall ncols e, read_rows str2float ncols lines = inl e -> e = ValueError.
Proof.
  induction lines as [|line lines IH]; intros ncols e; cbn [read_rows];
    [discriminate|].
  destruct (fields line) as [|tok toks]; [apply IH|].
  destruct (convert_row str2float (tok :: toks)) as [e'|r] eqn:Hc.
  - intros [= <-]. exact (convert_row_raises _ _ Hc).
  - cbn [py_bind]. destruct ncols as [k|].
    + destruct (length r =? k)%nat; [|now intros [= <-]].
      destruct (read_rows str2float (Some k) lines) as [e'|rs] eqn:Hr;
        [|discriminate].
      intros [= <-]. exact (IH _ _ Hr).
    + destruct (read_rows str2float (Some (length r)) lines) as [e'|rs] eqn:Hr;
        [|discriminate].
      intros [= <-]. exact (IH _ _ Hr).
Qed.

(** The data lines of a file read without error are valid records of one
    and the same number of fields. *)
Lemma read_rows_Some_uniform (lines : list string) :
  forall k rows,
    read_rows str2float (Some k) lines = inr rows ->
    Forall (fun line => is_data_line line = true ->
                        is_valid_record str2float line = true /\
                        length (fields line) = k) lines.
Proof.
  induction lines as [|line lines IH]; intros k rows; [constructor|].
  cbn [read_rows].
  destruct (fields line) as [|tok toks] eqn:Hf.
  - intros Hr. constructor; [|exact (IH _ _ Hr)].
    unfold is_data_line. rewrite Hf. discriminate.
  - destruct (convert_row str2float (tok :: toks)) as [e|r] eqn:Hc;
      [discriminate|].
    cbn [py_bind]. destruct (length r =? k)%nat eqn:Hk; [|discriminate].
    destruct (read_rows str2float (Some k) lines) as [e|rs] eqn:Hr;
      [discriminate|].
    intros _. constructor; [|exact (IH _ _ Hr)].
    intros _. unfold is_valid_record, is_data_line. rewrite Hf. split.
    + now rewrite (convert_row_valid _ _ _ Hc).
    + apply Nat.eqb_eq in Hk. rewrite <- Hk. symmetry.
      exact (convert_row_length _ _ Hc).
Qed.

Lemma read_rows_None_uniform (lines : list string) (rows : list (list float)) :
  read_rows str2float None lines = inr rows ->
  exists k,
    Forall (fun line => is_data_line line = true ->
                        is_valid_record str2float line = true /\
                        length (fields line) = k) lines.
Proof.
  revert rows. induction lines as [|line lines IH]; intros rows.
  - intros _. exists 0%nat. constructor.
  - cbn [read_rows].
    destruct (fields line) as [|tok toks] eqn:Hf.
    + intros Hr. destruct (IH _ Hr) as [k Hk]. exists k.
      constructor; [|exact Hk]. unfold is_data_line. rewrite Hf. discriminate.
    + destruct (convert_row str2float (tok :: toks)) as [e|r] eqn:Hc;
        [discriminate|].
      cbn [py_bind].
      destruct (read_rows str2float (Some (length r)) lines) as [e|rs] eqn:Hr;
        [discriminate|].
      intros _. exists (length r). constructor.
      * intros _. unfold is_valid_record, is_data_line. rewrite Hf. split.
        -- now rewrite (convert_row_valid _ _ _ Hc).
        -- symmetry. exact (convert_row_length _ _ Hc).
      * exact (read_rows_Some_uniform _ _ _ Hr).
Qed.

(** X5: a data line with a field that is no number, or two data lines with
    different numbers of fields, anywhere in the file, make the whole file
    fail through the [except] clause with a [ValueError]. *)
Theorem malformed_file_is_ValueError (filename : string) (lines : list string) :
  fs filename = Some lines ->
  (exists line, In line lines /\ is_data_line line = true /\
                is_valid_record str2float line = false) \/
  (exists line1 line2, In line1 lines /\ In line2 lines /\
                       is_data_line line1 = true /\ is_data_line line2 = true /\
                       length (fields line1) <> length (fields line2)) ->
  get_avg_rg_from_file str2float fs filename =
    ReturnNone (ErrorOccurred ValueError).
Proof.
  intros Hfs Hbad. unfold get_avg_rg_from_file, loadtxt. rewrite Hfs.
  destruct (read_rows str2float None lines) as [e|rows] eqn:Hr.
  - now rewrite (read_rows_raises _ _ _ Hr).
  - exfalso. destruct (read_rows_None_uniform _ _ Hr) as [k Hk].
    rewrite List.Forall_forall in Hk.
    destruct Hbad as [(line & Hin & Hd & Hv)|(l1 & l2 & H1 & H2 & Hd1 & Hd2 & Hne)].
    + destruct (Hk line Hin Hd) as [Hv' _]. congruence.
    + destruct (Hk l1 H1 Hd1) as [_ Hl1]. destruct (Hk l2 H2 Hd2) as [_ Hl2].
      congruence.
Qed.
End FileOutcomes.

Lemma returns_tuple_iff_witness :
  exists a,
    get_avg_rg_from_file scenario.read_digits scenario.files
      "gyration_tree.dat" = ReturnTuple a.
Proof.
  apply (proj2 (returns_tuple_iff scenario.read_digits scenario.files
                  "gyration_tree.dat")).
  exists scenario.tree_file. eexists.
  split; [reflexivity|]. split; [vm_compute; reflexivity|].
  split; vm_compute; lia.
Defined.

Lemma malformed_file_is_ValueError_witness :
  get_avg_rg_from_file scenario.read_digits
    (fun _ => Some ["0 10"; "1 ten"; "2 10"]%string) "gyration_alpha.dat" =
    ReturnNone (ErrorOccurred ValueError) /\
  get_avg_rg_from_file scenario.read_digits
    (fun _ => Some ["0 10"; "1 10 3"; "2 10"]%string) "gyration_alpha.dat" =
    ReturnNone (ErrorOccurred ValueError).
Proof.
  split.
  - apply (malformed_file_is_ValueError scenario.read_digits _
             "gyration_alpha.dat" ["0 10"; "1 ten"; "2 10"]%string eq_refl).
    left. exists "1 ten"%string.
    split; [right; left; reflexivity|]. split; vm_compute; reflexivity.
  - apply (malformed_file_is_ValueError scenario.read_digits _
             "gyration_alpha.dat" ["0 10"; "1 10 3"; "2 10"]%string eq_refl).
    right. exists "0 10"%string, "1 10 3"%string.
    split; [left; reflexivity|]. split; [right; left; reflexivity|].
    split; [vm_compute; reflexivity|]. split; [vm_compute; reflexivity|].
    vm_compute. lia.
Defined.

(** ** Which error a loaded file ends in (lines 28-31 and 66-68) *)

Section FileShapes.
Variable str2float : string -> option float.
Variable fs : string -> option (list string).

Lemma read_rows_Some_rectangular (lines : list string) :
  forall k rows,
    read_rows str2float (Some k) lines = inr rows ->
    Forall (fun r => length r = k) rows.
Proof.
  induction lines as [|line lines IH]; intros k rows; cbn [read_rows].
  - intros [= <-]. constructor.
  - destruct (fields line) as [|tok toks]; [apply IH|].
    destruct (convert_row str2float (tok :: toks)) as [e|r]; [discriminate|].
    cbn [py_bind]. destruct (length r =? k)%nat eqn:Hk; [|discriminate].
    destruct (read_rows str2float (Some k) lines) as [e|rs] eqn:Hr;
      [discriminate|].
    intros [= <-]. constructor; [now apply Nat.eqb_eq|exact (IH _ _ Hr)].
Qed.

(** The rows read have the length of the first one, which is not 0. *)
Lemma read_rows_None_rectangular (lines : list string) :
  forall rows,
    read_rows str2float None lines = inr rows ->
    Forall (fun r => length r = length (hd [] rows)) rows /\
    (rows <> [] -> (1 <= length (hd [] rows))%nat).
Proof.
  induction lines as [|line lines IH]; intros rows; cbn [read_rows].
  - intros [= <-]. split; [constructor|congruence].
  - destruct (fields line) as [|tok toks] eqn:Hf; [apply IH|].
    destruct (convert_row str2float (tok :: toks)) as [e|r] eqn:Hc;
      [discriminate|].
    cbn [py_bind].
    destruct (read_rows str2float (Some (length r)) lines) as [e|rs] eqn:Hr;
      [discriminate|].
    intros [= <-]. cbn [hd]. split.
    + constructor; [reflexivity|].
      exact (read_rows_Some_rectangular _ _ _ Hr).
    + intros _. rewrite (convert_row_length _ _ _ Hc). cbn [length]. lia.
Qed.

Lemma squeeze_single_column (rows : list (list float)) :
  (2 <= length rows)%nat ->
  Forall (fun r => length r = 1%nat) rows ->
  exists xs, squeeze rows = Vector xs.
Proof.
  intros Hn Hall.
  assert (Hb : forallb (fun r => (length r =? 1)%nat) rows = true).
  { apply forallb_forall. rewrite List.Forall_forall in Hall.
    intros r Hr. apply Nat.eqb_eq. now apply Hall. }
  destruct rows as [|r [|r2 rs]]; cbn [length] in Hn; try lia.
  unfold squeeze. rewrite Hb.
  destruct r as [|x [|y r]]; eexists; reflexivity.
Qed.

(** X13: of the files that read without error, the "no valid data" message
    of line 30 is printed for one shape only, a single record of a single
    number; every other table with fewer than two records or fewer than two
    fields ends in the [except] clause, on the [IndexError] of
    [data.shape[1]]. *)
Theorem error_by_shape
  (filename : string) (lines : list string) (rows : list (list float)) :
  fs filename = Some lines ->
  read_rows str2float None lines = inr rows ->
  (forall x, rows = [[x]] ->
     get_avg_rg_from_file str2float fs filename = ReturnNone NoValidData) /\
  ((length rows < 2)%nat \/ (length (hd [] rows) < 2)%nat ->
   (forall x, rows <> [[x]]) ->
   get_avg_rg_from_file str2float fs filename =
     ReturnNone (ErrorOccurred IndexError)).
Proof.
  intros Hfs Hr. unfold get_avg_rg_from_file, loadtxt. rewrite Hfs, Hr.
  cbn [py_bind py_ret]. split.
  - intros x ->. reflexivity.
  - intros Hshape Hnot.
    destruct (read_rows_None_rectangular _ _ Hr) as [Hrect Hpos].
    assert (Hvec : exists xs, squeeze rows = Vector xs).
    { destruct rows as [|r [|r2 rs]].
      - now exists [].
      - destruct r as [|x [|y r]].
        + now exists [].
        + exfalso. now apply (Hnot x).
        + now eexists.
      - apply squeeze_single_column; [cbn [length]; lia|].
        destruct Hshape as [Hlt|Hlt]; [cbn [length] in Hlt; lia|].
        specialize (Hpos ltac:(discriminate)).
        assert (Hone : length (hd [] (r :: r2 :: rs)) = 1%nat) by lia.
        rewrite Hone in Hrect. exact Hrect. }
    destruct Hvec as [xs ->]. reflexivity.
Qed.
End FileShapes.

Lemma error_by_shape_witness :
  get_avg_rg_from_file scenario.read_digits
    (fun _ => Some ["7"]%string) "gyration_alpha.dat" =
    ReturnNone NoValidData /\
  get_avg_rg_from_file scenario.read_digits
    (fun _ => Some ["7"; "8"; "9"]%string) "gyration_alpha.dat" =
    ReturnNone (ErrorOccurred IndexError) /\
  get_avg_rg_from_file scenario.read_digits
    (fun _ => Some ["0 10"]%string) "gyration_alpha.dat" =
    ReturnNone (ErrorOccurred IndexError).
Proof.
  split; [|split].
  - refine (proj1 (error_by_shape scenario.read_digits _ "gyration_alpha.dat"
                     ["7"]%string [[7%float]] eq_refl _) 7%float eq_refl).
    vm_compute. reflexivity.
  - refine (proj2 (error_by_shape scenario.read_digits _ "gyration_alpha.dat"
                     ["7"; "8"; "9"]%string [[7]; [8]; [9]]%float eq_refl _)
              _ _).
    + vm_compute. reflexivity.
    + right. vm_compute. lia.
    + intros x. discriminate.
  - refine (proj2 (error_by_shape scenario.read_digits _ "gyration_alpha.dat"
                     ["0 10"]%string [[0; 10]]%float eq_refl _) _ _).
    + vm_compute. reflexivity.
    + left. vm_compute. lia.
    + intros x. discriminate.
Defined.

(** ** What the result depends on *)

Section Dependence.
Variable str2float : string -> option float.

Lemma read_rows_data_lines (lines : list string) :
  forall ncols,
    read_rows str2float ncols (data_lines lines) =
    read_rows str2float ncols lines.
Proof.
  unfold data_lines.
  induction lines as [|line lines IH]; intros ncols; [reflexivity|].
  cbn [List.filter]. unfold is_data_line at 1.
  destruct (fields line) as [|tok toks] eqn:Hf.
  - cbn [read_rows]. rewrite Hf. apply IH.
  - cbn [read_rows]. rewrite Hf.
    destruct (convert_row str2float (tok :: toks)) as [e|r]; [reflexivity|].
    cbn [py_bind]. destruct ncols as [k|].
    + destruct (length r =? k)%nat; [|reflexivity]. now rewrite IH.
    + now rewrite IH.
Qed.

Lemma read_rows_same_fields (lines lines' : list string) :
  map fields lines = map fields lines' ->
  forall ncols,
    read_rows str2float ncols lines = read_rows str2float ncols lines'.
Proof.
  revert lines'. induction lines as [|line lines IH]; intros [|line' lines'];
    cbn [map]; try discriminate; [reflexivity|].
  intros [= Hf Hrest] ncols. cbn [read_rows]. rewrite Hf.
  destruct (fields line') as [|tok toks]; [now apply IH|].
  destruct (convert_row str2float (tok :: toks)) as [e|r]; [reflexivity|].
  cbn [py_bind]. destruct ncols as [k|].
  - destruct (length r =? k)%nat; [|reflexivity]. now rewrite (IH _ Hrest).
  - now rewrite (IH _ Hrest).
Qed.

Lemma strip_comment_app (line comment : string) :
  strip_comment (line ++ String "#"%char comment) = strip_comment line.
Proof.
  induction line as [|c line IH]; simpl.
  - reflexivity.
  - destruct (Ascii.eqb c "#"%char); [reflexivity|]. now rewrite IH.
Qed.

(** X6: what a file comes back with depends only on the fields of its data
    lines, in order: header lines, blank lines and comments after the data
    of a line change nothing. *)
Theorem comments_and_blank_lines_are_ignored
  (fs fs' : string -> option (list string)) (filename : string)
  (lines lines' : list string) :
  fs filename = Some lines ->
  fs' filename = Some lines' ->
  map fields (data_lines lines) = map fields (data_lines lines') ->
  get_avg_rg_from_file str2float fs filename =
  get_avg_rg_from_file str2float fs' filename.
Proof.
  intros Hfs Hfs' Hf. unfold get_avg_rg_from_file, loadtxt.
  rewrite Hfs, Hfs'.
  rewrite <- (read_rows_data_lines lines), <- (read_rows_data_lines lines').
  now rewrite (read_rows_same_fields _ _ Hf).
Qed.

(** A comment appended to a line leaves its fields as they are. *)
Lemma fields_with_comment (line comment : string) :
  fields (line ++ String "#"%char comment) = fields line.
Proof. unfold fields. now rewrite strip_comment_app. Qed.
End Dependence.

Lemma comments_and_blank_lines_are_ignored_witness :
  get_avg_rg_from_file scenario.read_digits scenario.files "gyration_tree.dat"
  = get_avg_rg_from_file scenario.read_digits
      (fun _ => Some [ "0 5 # first"; "1 5"; "2 5"; "   "; "3 5"; "# half";
                       "4 10"; "5 10"; "6 10"; "7 10" ]%string)
      "gyration_tree.dat".
Proof.
  apply (comments_and_blank_lines_are_ignored scenario.read_digits
           scenario.files _ "gyration_tree.dat" scenario.tree_file
           [ "0 5 # first"; "1 5"; "2 5"; "   "; "3 5"; "# half";
             "4 10"; "5 10"; "6 10"; "7 10" ]%string);
    reflexivity.
Defined.

Lemma nth_firstn_2 (j : nat) (r : list float) (d : float) :
  (j < 2)%nat -> nth j (firstn 2 r) d = nth j r d.
Proof.
  intros Hj. destruct r as [|x [|y r]]; destruct j as [|[|j]]; try lia;
    reflexivity.
Qed.

(** X7: columns after the second are never read: the table cut down to its
    first two columns is analysed to the same result. *)
Theorem further_columns_are_ignored (rows : list (list float)) :
  (2 <= length (hd [] rows))%nat ->
  analyse (Matrix (map (firstn 2) rows)) = analyse (Matrix rows).
Proof.
  intros Hk.
  assert (Hk' : (2 <= length (hd [] (map (firstn 2) rows)))%nat).
  { destruct rows as [|r rows]; cbn [hd map] in *; [cbn in Hk; lia|].
    rewrite length_firstn. lia. }
  destruct (analyse_Matrix rows Hk) as (ts & rg & Hts & Hrg & _ & ->).
  destruct (analyse_Matrix _ Hk') as (ts' & rg' & Hts' & Hrg' & _ & ->).
  assert (Hcol : forall j, (j < 2)%nat ->
            column (Matrix (map (firstn 2) rows)) j = column (Matrix rows) j).
  { intros j Hj. unfold column.
    replace (j <? length (hd [] (map (firstn 2) rows)))%nat with true
      by (symmetry; apply Nat.ltb_lt; lia).
    replace (j <? length (hd [] rows))%nat with true
      by (symmetry; apply Nat.ltb_lt; lia).
    unfold py_ret. f_equal. rewrite map_map.
    apply map_ext. intros r. now apply nth_firstn_2. }
  rewrite (Hcol 0%nat ltac:(lia)), Hts in Hts'.
  rewrite (Hcol 1%nat ltac:(lia)), Hrg in Hrg'.
  injection Hts' as <-. injection Hrg' as <-.
  now rewrite length_map.
Qed.

Lemma further_columns_are_ignored_witness :
  analyse (Matrix (map (firstn 2)
             [[0; 10; 7]; [1; 10; 8]; [2; 20; 9]; [3; 20; 9]]%float)) =
  analyse (Matrix [[0; 10; 7]; [1; 10; 8]; [2; 20; 9]; [3; 20; 9]]%float).
Proof.
  apply further_columns_are_ignored. vm_compute. lia.
Defined.

(** X8: the statistics of a tuple are those of its window alone: two
    returned tuples of as many samples whose values agree from the start of
    the window on have the same window, mean and mean square, whatever
    their burn-in values and their timesteps are. *)
Theorem burn_in_is_ignored (data data' : ndarray) (a a' : Analysis) :
  analyse data = inr (ReturnTuple a) ->
  analyse data' = inr (ReturnTuple a') ->
  length (rg_values a) = length (rg_values a') ->
  skipn (Z.to_nat (equilibrated_start a)) (rg_values a) =
  skipn (Z.to_nat (equilibrated_start a)) (rg_values a') ->
  equilibrated_start a' = equilibrated_start a /\
  equilibrated_rg a' = equilibrated_rg a /\
  avg_rg a' = avg_rg a /\
  avg_rg_squared a' = avg_rg_squared a.
Proof.
  intros Ha Ha' Hlen Hskip.
  destruct (analyse_tuple_invariants data a Ha) as (_ & _ & Hs & _).
  destruct (analyse_tuple_invariants data' a' Ha') as (_ & _ & Hs' & _).
  destruct (analyse_ReturnTuple data a Ha)
    as (rows & _ & _ & _ & _ & _ & _ & Heq & Hm & Hsq).
  destruct (analyse_ReturnTuple data' a' Ha')
    as (rows' & _ & _ & _ & _ & _ & _ & Heq' & Hm' & Hsq').
  assert (Hstart : equilibrated_start a' = equilibrated_start a)
    by (rewrite Hs, Hs', Hlen; reflexivity).
  assert (Hwin : equilibrated_rg a' = equilibrated_rg a).
  { rewrite Heq, Heq', Hstart. unfold slice_from. now symmetry. }
  split; [exact Hstart|]. split; [exact Hwin|].
  rewrite Hm, Hm', Hsq, Hsq', Hwin. split; reflexivity.
Qed.

Lemma burn_in_is_ignored_witness :
  exists a a',
    analyse (Matrix scenario.alpha_series) = inr (ReturnTuple a) /\
    analyse (Matrix (scenario.series [1; 2; 3; 4; 5; 6; 20; 20]%float))
      = inr (ReturnTuple a') /\
    avg_rg a' = avg_rg a /\ avg_rg_squared a' = avg_rg_squared a.
Proof.
  assert (Ha : exists a, analyse (Matrix scenario.alpha_series)
                            = inr (ReturnTuple a) /\
                 equilibrated_start a = 6 /\
                 rg_values a = [10; 10; 10; 10; 20; 20; 20; 20]%float)
    by (eexists; repeat split; vm_compute; reflexivity).
  assert (Ha' : exists a',
             analyse (Matrix (scenario.series [1; 2; 3; 4; 5; 6; 20; 20]%float))
               = inr (ReturnTuple a') /\
             rg_values a' = [1; 2; 3; 4; 5; 6; 20; 20]%float)
    by (eexists; split; vm_compute; reflexivity).
  destruct Ha as (a & Ha & Hs & Hv). destruct Ha' as (a' & Ha' & Hv').
  exists a, a'.
  destruct (burn_in_is_ignored _ _ a a' Ha Ha') as (_ & _ & Hm & Hsq).
  - rewrite Hv, Hv'. reflexivity.
  - rewrite Hs, Hv, Hv'. reflexivity.
  - auto.
Defined.

(** ** The command line (lines 70-96 and 162-171) *)

(** X9: the script reports a ratio exactly when it is given two file names
    that both load, and the ratio is then the quotient of the two mean
    squares; with any other number of arguments, or a file that does not
    load, it exits with status 1. *)
Theorem script_reports_or_exits
  (str2float : string -> option float) (fs : string -> option (list string))
  (argv : list string) :
  (forall ratio,
     script str2float fs argv = Reported ratio <->
     exists prog file_alpha file_tree alpha tree,
       argv = [prog; file_alpha; file_tree] /\
       get_avg_rg_from_file str2float fs file_alpha = ReturnTuple alpha /\
       get_avg_rg_from_file str2float fs file_tree = ReturnTuple tree /\
       ratio = (avg_rg_squared alpha / avg_rg_squared tree)%float) /\
  (forall code, script str2float fs argv = SysExit code -> code = 1).
Proof.
  unfold script, compute_gyration.main, compare. split.
  - intros ratio. split.
    + destruct argv as [|prog [|fa [|ft [|extra argv]]]]; cbn; try discriminate.
      destruct (get_avg_rg_from_file str2float fs fa) as [m|alpha] eqn:Ha;
        [discriminate|].
      destruct (get_avg_rg_from_file str2float fs ft) as [m|tree] eqn:Ht;
        [discriminate|].
      intros [= <-]. exists prog, fa, ft, alpha, tree. auto.
    + intros (prog & fa & ft & alpha & tree & -> & Ha & Ht & ->).
      cbn. now rewrite Ha, Ht.
  - intros code.
    destruct (negb (length argv =? 3)%nat); [now intros [= <-]|].
    destruct (get_avg_rg_from_file str2float fs (nth 1 argv EmptyString));
      [now intros [= <-]|].
    destruct (get_avg_rg_from_file str2float fs (nth 2 argv EmptyString));
      [now intros [= <-]|discriminate].
Qed.

(** * Further properties of [tetracyclic_analysis.py] *)

(** ** The graph built (lines 25, 34-36) *)



Lemma has_edge_neighbours (g : Graph) (u v : Z) :
  has_edge g u v = true <-> v ∈ neighbours g u.
Proof. unfold has_edge. now rewrite bool_decide_eq_true. Qed.



(** ** The calculation on a graph without edges (lines 44-60) *)

Lemma number_of_edges_without_edges (nodes : list Z) :
  number_of_edges (graph_of nodes []) = 0.
Proof.
  unfold number_of_edges.
  assert (Hdeg : forall n, degree (graph_of nodes []) n = 0).
  { intros n. unfold degree.
    assert (Hnb : neighbours (graph_of nodes []) n = ∅).
    { apply set_eq. intros x. rewrite <- has_edge_neighbours, has_edge_graph_of.
      cbn [In]. set_solver. }
    unfold has_edge. rewrite Hnb, size_empty.
    rewrite bool_decide_eq_false_2 by set_solver. reflexivity. }
  induction (elements (dom (graph_of nodes []))) as [|n l IH]; [reflexivity|].
  cbn [fold_right]. rewrite Hdeg.
  change (0 + ?x) with x. exact IH.
Qed.

(** X11: on a graph without edges the calculation returns no g-factor: once
    the two library calls have returned, the quotient [3 / (e**2)] of line 60
    raises [ZeroDivisionError]. *)
Theorem edgeless_graph_has_no_g_factor
  (normalized_laplacian_matrix : Graph -> Py (list (list float)))
  (pinv : list (list float) -> Py (list (list float)))
  (self : AlphaGraphAnalysis) (g : Graph) :
  self_G self = Some g ->
  number_of_edges g = 0 ->
  (forall g_factor,
     calculate_theoretical_g_factor normalized_laplacian_matrix pinv self
       <> inr g_factor) /\
  (forall L_norm L_norm_plus,
     normalized_laplacian_matrix g = inr L_norm ->
     pinv L_norm = inr L_norm_plus ->
     calculate_theoretical_g_factor normalized_laplacian_matrix pinv self
       = inl ZeroDivisionError).
Proof.
  intros HG He. unfold calculate_theoretical_g_factor. rewrite HG.
  cbn [getattr py_bind py_ret]. rewrite He. split.
  - intros x. destruct (normalized_laplacian_matrix g) as [e|L];
      [discriminate|].
    cbn [py_bind]. destruct (pinv L) as [e|Lp]; discriminate.
  - intros L Lp HL Hp. rewrite HL. cbn [py_bind]. rewrite Hp. reflexivity.
Qed.

Lemma edgeless_graph_has_no_g_factor_witness :
  calculate_theoretical_g_factor
    (fun _ => inr [[1; 0]; [0; 1]]%float) (fun m => inr m)
    {| self_G := Some (graph_of [1; 2] []);
       self_expected_g_from_paper := Some expected_g |}
  = inl ZeroDivisionError.
Proof.
  refine (proj2 (edgeless_graph_has_no_g_factor
                   (fun _ => inr [[1; 0]; [0; 1]]%float) (fun m => inr m)
                   {| self_G := Some (graph_of [1; 2] []);
                      self_expected_g_from_paper := Some expected_g |}
                   (graph_of [1; 2] []) eq_refl _) _ _ eq_refl eq_refl).
  apply number_of_edges_without_edges.
Defined.

(** * Further properties of the moments *)

Section ExactOrder.
Import exact.
Local Open Scope Q_scope.

Lemma total_square_nonneg (ys : list Q) : 0 <= total (square ys).
Proof.
  induction ys as [|y ys IH]; [cbn; lra|].
  cbn [square map total fold_right]. fold (square ys). fold (total (square ys)).
  cbn [f_mul exact_arith]. nra.
Qed.

Lemma total_square_zero (ys : list Q) :
  total (square ys) == 0 -> Forall (fun y => y == 0) ys.
Proof.
  induction ys as [|y ys IH]; [constructor|].
  cbn [square map total fold_right]. fold (square ys). fold (total (square ys)).
  cbn [f_mul exact_arith]. intros H0.
  pose proof (total_square_nonneg ys) as Hnn.
  assert (Hy : y * y == 0) by nra.
  constructor.
  - destruct (Qmult_integral _ _ Hy); assumption.
  - apply IH. nra.
Qed.

Lemma var_total (xs : list Q) :
  var xs == total (square (map (fun x => f_sub x (mean xs)) xs)) / count xs.
Proof.
  unfold var. cbv zeta. rewrite mean_total.
  rewrite (count_same_length xs) by (rewrite length_square; apply length_map).
  reflexivity.
Qed.

(** X12: in exact arithmetic the mean square of a non-empty sequence is
    never below the square of its mean, and equals it exactly when every
    value equals the mean. *)
Theorem mean_square_dominates_square_mean (xs : list Q) :
  xs <> [] ->
  mean xs * mean xs <= mean (square xs) /\
  (mean (square xs) == mean xs * mean xs <->
   Forall (fun x => x == mean xs) xs).
Proof.
  intros Hne. pose proof (count_pos xs Hne) as Hpos.
  pose proof (mean_square_minus_square_mean xs Hne) as Hid.
  pose proof (var_total xs) as Hv.
  pose proof (total_square_nonneg (map (fun x => f_sub x (mean xs)) xs)) as Hnn.
  assert (Hvar : 0 <= var xs).
  { rewrite Hv. apply Qle_shift_div_l; [exact Hpos|]. lra. }
  split; [lra|]. split.
  - intros Heq.
    assert (Hv0 : var xs == 0) by lra.
    assert (Ht0 : total (square (map (fun x => f_sub x (mean xs)) xs)) == 0).
    { rewrite Hv in Hv0.
      assert (Hc : ~ count xs == 0) by lra.
      rewrite <- (Qmult_div_r _ _ Hc), Hv0. ring. }
    apply total_square_zero in Ht0.
    rewrite List.Forall_forall in Ht0. apply List.Forall_forall. intros x Hx.
    specialize (Ht0 (f_sub x (mean xs)) (in_map _ _ _ Hx)).
    cbn [f_sub exact_arith] in Ht0. lra.
  - intros Hc. exact (constant_mean_square (mean xs) xs Hne Hc).
Qed.
End ExactOrder.

Lemma mean_square_dominates_square_mean_witness :
  (mean [1; 2; 6] * mean [1; 2; 6] <= mean (square [1; 2; 6]))%Q.
Proof.
  exact (proj1 (mean_square_dominates_square_mean [1; 2; 6]%Q
                  ltac:(discriminate))).
Defined.
